(** * climate_categories: the classes of [_categories.py]

    A shallow embedding of [climate_categories/_categories.py] and the
    properties of its two classes, [Categorization] and
    [HierarchicalCategorization].

    Python objects live in a heap: an object is a class tag together with its
    attribute dictionary ([__dict__]), and a method is a computation in a
    state-and-exception monad over that heap.  An assignment
    [self.attr = v] is an insertion into the attribute dictionary of [self];
    [raise E] ends the computation with the exception and the heap reached so
    far.

    The module also tries to import [pandas] and binds the name to [None]
    when that fails; no method body reads it ([df] raises before it could),
    so the binding is left out of the state. *)

From Stdlib Require Import ZArith String.
From stdpp Require Import gmap strings list fin_maps relations.

Local Open Scope string_scope.

(** ** Values, objects and the heap *)

(** [datetime.date]. *)
Record date := Date { year : Z; month : Z; day : Z }.

(** References to heap objects. *)
Abbreviation loc := nat (only parsing).

(** The Python values that reach the attributes of the two classes.  Python
    checks no annotation at run time, so an attribute can hold any of them. *)
Inductive value :=
| VNone
| VBool (b : bool)
| VInt (z : Z)
| VStr (s : string)
| VDate (d : date)
| VRef (l : loc).

Inductive class :=
| CategorizationClass
| HierarchicalCategorizationClass.

(** An instance: its class and its [__dict__]. *)
Record object := Object {
  obj_class : class;
  obj_dict : gmap string value
}.

Abbreviation heap := (gmap nat object) (only parsing).

(** The exceptions.  The only [raise] of [_categories.py] is of
    [NotImplementedError]; [TypeError] is what [super(cls, self)] raises when
    [self] is no instance of [cls].  The other constructors are the error
    kinds that the documentation of the package names for lookups and
    extensions, none of which the module defines or raises. *)
Inductive exn :=
| NotImplementedError
| CodeNotFound
| DuplicateCode
| CyclicHierarchy
| InconsistentLevel
| InvalidEdge
| TypeError.

Inductive outcome (A : Type) :=
| Ret (a : A)
| Raise (e : exn).
Arguments Ret {A} a.
Arguments Raise {A} e.

(** ** The monad of method bodies *)

Definition M (A : Type) : Type := gmap nat object → outcome A * gmap nat object.

#[export] Instance M_ret : MRet M := λ A a h, (Ret a, h).

#[export] Instance M_bind : MBind M := λ A B k m h,
  match m h with
  | (Ret a, h') => k a h'
  | (Raise e, h') => (Raise e, h')
  end.

(** [raise E]. *)
Definition raise {A} (e : exn) : M A := λ h, (Raise e, h).

(** [self.k = v]: the attribute dictionary of [self] gets [v] at [k].  A
    reference always names a live object (Python has no dangling reference);
    on a heap without [self] nothing changes. *)
Definition set_dict (k : string) (v : value) (o : object) : object :=
  {| obj_class := obj_class o; obj_dict := <[k := v]> (obj_dict o) |}.

Definition setattr (self : loc) (k : string) (v : value) : M unit :=
  λ h, (Ret (), alter (set_dict k v) self h).

(** [object.__new__(cls)]: a fresh instance with an empty [__dict__]. *)
Definition new_object (c : class) : M loc :=
  λ h, let l := fresh (dom h) in
       (Ret l, <[l := {| obj_class := c; obj_dict := ∅ |}]> h).

(** [self.k], for reading an attribute back. *)
Definition getattr (h : gmap nat object) (self : loc) (k : string) : option value :=
  o ← h !! self; obj_dict o !! k.

(** [issubclass(c, c')]: [HierarchicalCategorization] derives from
    [Categorization]. *)
Definition issubclass (c c' : class) : bool :=
  match c, c' with
  | CategorizationClass, HierarchicalCategorizationClass => false
  | _, _ => true
  end.

(** [super(cls, self)]: Python builds the proxy only when [self] is an
    instance of [cls], and raises [TypeError] otherwise, before any method
    of the proxy runs. *)
Definition super (cls : class) (self : loc) : M unit :=
  λ h, match h !! self with
       | Some o => if issubclass (obj_class o) cls then (Ret (), h)
                   else (Raise TypeError, h)
       | None => (Raise TypeError, h)
       end.

(** ** [class Categorization] *)

Module Categorization.

(** The keyword-only parameters of [__init__].  [version] and
    [hierarchical] have defaults: [None] stands for an omitted argument. *)
Record init_kwargs := InitKwargs {
  name : value;
  references : value;
  title : value;
  comment : value;
  institution : value;
  last_update : value;
  version : option value;
  hierarchical : option value
}.

Definition __init__ (self : loc) (kw : init_kwargs) : M unit :=
  setattr self "name" (name kw) ;;
  setattr self "references" (references kw) ;;
  setattr self "title" (title kw) ;;
  setattr self "comment" (comment kw) ;;
  setattr self "institution" (institution kw) ;;
  setattr self "last_update" (last_update kw) ;;
  setattr self "version" (default VNone (version kw)) ;;
  setattr self "hierarchical" (default (VBool false) (hierarchical kw)).

(** The call [Categorization(name=..., ...)]: allocate, initialise, return. *)
Definition construct (kw : init_kwargs) : M loc :=
  self ← new_object CategorizationClass;
  __init__ self kw ;;
  mret self.

(** The keyword-only parameters of [extend]; [title], [comment] and
    [last_update] default to [None]. *)
Record extend_kwargs := ExtendKwargs {
  ext_name : string;
  categories : gmap string string;
  ext_title : option string;
  ext_comment : option string;
  ext_last_update : option date
}.

Definition from_csvs (cls : class) (metadata_csv data_csv : string) : M loc :=
  raise NotImplementedError.

Definition extend (self : loc) (kw : extend_kwargs) : M loc :=
  raise NotImplementedError.

Definition __getitem__ (self : loc) (code : string) : M string :=
  raise NotImplementedError.

Definition keys (self : loc) : M (list string) :=
  raise NotImplementedError.

(** The property [df]; a data frame is its rows (code, meaning). *)
Definition df (self : loc) : M (list (string * string)) :=
  raise NotImplementedError.

End Categorization.

(** ** [class HierarchicalCategorization(Categorization)] *)

Module HierarchicalCategorization.

(** [__init__] has no [hierarchical] parameter; [total_sum] defaults to
    [False]. *)
Record init_kwargs := InitKwargs {
  name : value;
  references : value;
  title : value;
  comment : value;
  institution : value;
  last_update : value;
  version : option value;
  total_sum : option value
}.

Definition __init__ (self : loc) (kw : init_kwargs) : M unit :=
  super HierarchicalCategorizationClass self ;;
  Categorization.__init__ self
    {| Categorization.name := name kw;
       Categorization.references := references kw;
       Categorization.title := title kw;
       Categorization.comment := comment kw;
       Categorization.institution := institution kw;
       Categorization.last_update := last_update kw;
       Categorization.version := Some (default VNone (version kw));
       Categorization.hierarchical := Some (VBool true) |} ;;
  setattr self "total_sum" (default (VBool false) (total_sum kw)).

Definition construct (kw : init_kwargs) : M loc :=
  self ← new_object HierarchicalCategorizationClass;
  __init__ self kw ;;
  mret self.

Record extend_kwargs := ExtendKwargs {
  ext_name : string;
  categories : gmap string string;
  children_arg : option (gmap string (list string));
  ext_title : option string;
  ext_comment : option string;
  ext_last_update : option date
}.

Record extend_with_hierarchy_kwargs := ExtendWithHierarchyKwargs {
  ewh_name : string;
  ewh_categories : gmap string string;
  hierarchy_arg : gmap string (list string);
  ewh_title : option string;
  ewh_comment : option string;
  ewh_last_update : option date
}.

Definition from_csvs (cls : class)
    (metadata_csv data_csv hierarchy_csv : string) : M loc :=
  raise NotImplementedError.

Definition extend (self : loc) (kw : extend_kwargs) : M loc :=
  raise NotImplementedError.

Definition extend_with_hierarchy (self : loc)
    (kw : extend_with_hierarchy_kwargs) : M loc :=
  raise NotImplementedError.

Definition level (self : loc) (code : string) : M Z :=
  raise NotImplementedError.

Definition parents (self : loc) (code : string) : M (list string) :=
  raise NotImplementedError.

Definition children (self : loc) (code : string) : M (list string) :=
  raise NotImplementedError.

(** The property [hierarchy]. *)
Definition hierarchy (self : loc) : M (gmap string (list string)) :=
  raise NotImplementedError.

(** Inherited from [Categorization] without an override. *)
Definition __getitem__ := Categorization.__getitem__.
Definition keys := Categorization.keys.
Definition df := Categorization.df.

End HierarchicalCategorization.

(** ** Edges and cycles

    The graphs that the [children] and [hierarchy] arguments describe. *)

(** The edge [p → c] of a mapping from parent codes to lists of child codes,
    the shape of the [children] and [hierarchy] arguments. *)
Definition edge (m : gmap string (list string)) (p c : string) : Prop :=
  ∃ cs, m !! p = Some cs ∧ c ∈ cs.

(** A graph has a cycle when some code is its own ancestor. *)
Definition has_cycle (R : relation string) : Prop := ∃ a, tc R a a.


(** ** Client operations

    What a client of the module can do: construct an instance of either
    class, or invoke one of their operations.  [perform] gives the heap an
    operation leaves, whatever its outcome; [exec] runs a sequence of
    operations. *)

Inductive op :=
| Construct (kw : Categorization.init_kwargs)
| ConstructHierarchical (kw : HierarchicalCategorization.init_kwargs)
| CallFromCsvs (cls : class) (metadata_csv data_csv : string)
| CallHierarchicalFromCsvs (cls : class) (metadata_csv data_csv hierarchy_csv : string)
| CallGetitem (self : loc) (code : string)
| CallKeys (self : loc)
| CallDf (self : loc)
| CallExtend (self : loc) (kw : Categorization.extend_kwargs)
| CallHierarchicalExtend (self : loc) (kw : HierarchicalCategorization.extend_kwargs)
| CallExtendWithHierarchy (self : loc)
    (kw : HierarchicalCategorization.extend_with_hierarchy_kwargs)
| CallLevel (self : loc) (code : string)
| CallParents (self : loc) (code : string)
| CallChildren (self : loc) (code : string)
| CallHierarchy (self : loc).

Definition perform (o : op) (h : gmap nat object) : gmap nat object :=
  match o with
  | Construct kw => (Categorization.construct kw h).2
  | ConstructHierarchical kw => (HierarchicalCategorization.construct kw h).2
  | CallFromCsvs cls m d => (Categorization.from_csvs cls m d h).2
  | CallHierarchicalFromCsvs cls m d y =>
      (HierarchicalCategorization.from_csvs cls m d y h).2
  | CallGetitem self code => (Categorization.__getitem__ self code h).2
  | CallKeys self => (Categorization.keys self h).2
  | CallDf self => (Categorization.df self h).2
  | CallExtend self kw => (Categorization.extend self kw h).2
  | CallHierarchicalExtend self kw => (HierarchicalCategorization.extend self kw h).2
  | CallExtendWithHierarchy self kw =>
      (HierarchicalCategorization.extend_with_hierarchy self kw h).2
  | CallLevel self code => (HierarchicalCategorization.level self code h).2
  | CallParents self code => (HierarchicalCategorization.parents self code h).2
  | CallChildren self code => (HierarchicalCategorization.children self code h).2
  | CallHierarchy self => (HierarchicalCategorization.hierarchy self h).2
  end.

Fixpoint exec (ops : list op) (h : gmap nat object) : gmap nat object :=
  match ops with
  | [] => h
  | o :: ops' => exec ops' (perform o h)
  end.

(** Every instance of [HierarchicalCategorization] in the heap has the
    attribute [hierarchical] equal to [True]. *)
Definition hierarchical_True (h : gmap nat object) : Prop :=
  ∀ l o, h !! l = Some o →
         obj_class o = HierarchicalCategorizationClass →
         obj_dict o !! "hierarchical" = Some (VBool true).

(** The attribute dictionary that the assignments of
    [Categorization.__init__] build, in their order. *)
Definition Categorization_dict (kw : Categorization.init_kwargs) : gmap string value :=
  <["hierarchical" := default (VBool false) (Categorization.hierarchical kw)]>
  (<["version" := default VNone (Categorization.version kw)]>
  (<["last_update" := Categorization.last_update kw]>
  (<["institution" := Categorization.institution kw]>
  (<["comment" := Categorization.comment kw]>
  (<["title" := Categorization.title kw]>
  (<["references" := Categorization.references kw]>
  (<["name" := Categorization.name kw]> ∅))))))).

Definition Categorization_attributes : gset string :=
  {[ "name"; "references"; "title"; "comment"; "institution"; "last_update";
     "version"; "hierarchical" ]}.

Definition HierarchicalCategorization_attributes : gset string :=
  Categorization_attributes ∪ {[ "total_sum" ]}.

(** The dictionary [HierarchicalCategorization.__init__] builds: the eight
    assignments of the base class, then [total_sum]. *)
Definition HierarchicalCategorization_dict
    (kw : HierarchicalCategorization.init_kwargs) : gmap string value :=
  <["total_sum" := default (VBool false) (HierarchicalCategorization.total_sum kw)]>
  (<["hierarchical" := VBool true]>
  (<["version" := default VNone (HierarchicalCategorization.version kw)]>
  (<["last_update" := HierarchicalCategorization.last_update kw]>
  (<["institution" := HierarchicalCategorization.institution kw]>
  (<["comment" := HierarchicalCategorization.comment kw]>
  (<["title" := HierarchicalCategorization.title kw]>
  (<["references" := HierarchicalCategorization.references kw]>
  (<["name" := HierarchicalCategorization.name kw]> ∅)))))))).

(** ** The frame of an extension call

    What a call [m] of an extension method on [base] must leave alone, from
    the heap [h]: the object [base] itself, what [keys()] and a lookup on
    [base] answer, and, when the call fails, the whole heap, so that no
    object built on the way remains. *)
Definition leaves_base_unchanged (m : M loc) (h : gmap nat object) (base : loc) : Prop :=
  let '(out, h') := m h in
  h' !! base = h !! base
  ∧ (Categorization.keys base h').1 = (Categorization.keys base h).1
  ∧ (∀ x, (Categorization.__getitem__ base x h').1
          = (Categorization.__getitem__ base x h).1)
  ∧ match out with
    | Raise _ => h' = h
    | Ret _ => True
    end.

(** ** Concrete instances and calls *)

Definition ipcc_kwargs : Categorization.init_kwargs :=
  {| Categorization.name := VStr "IPCC2006";
     Categorization.references := VStr "IPCC 2006 Guidelines";
     Categorization.title := VStr "IPCC emission categories";
     Categorization.comment := VStr "as published";
     Categorization.institution := VStr "IPCC";
     Categorization.last_update := VDate (Date 2010 6 30);
     Categorization.version := None;
     Categorization.hierarchical := None |}.

(** The heap after [ipcc = Categorization(...)] on an empty heap, and the
    reference it returns. *)
Definition ipcc_heap : gmap nat object := (Categorization.construct ipcc_kwargs ∅).2.
Definition ipcc : loc := fresh (dom (∅ : gmap nat object)).


Definition tree_kwargs : HierarchicalCategorization.init_kwargs :=
  {| HierarchicalCategorization.name := VStr "TREE";
     HierarchicalCategorization.references := VStr "none";
     HierarchicalCategorization.title := VStr "A tree";
     HierarchicalCategorization.comment := VStr "for illustration";
     HierarchicalCategorization.institution := VStr "nowhere";
     HierarchicalCategorization.last_update := VDate (Date 2020 1 1);
     HierarchicalCategorization.version := None;
     HierarchicalCategorization.total_sum := None |}.

Definition tree_heap : gmap nat object :=
  (HierarchicalCategorization.construct tree_kwargs ∅).2.
Definition tree : loc := fresh (dom (∅ : gmap nat object)).

Definition tree_object : object :=
  Object HierarchicalCategorizationClass (HierarchicalCategorization_dict tree_kwargs).



(** [children={"A": ["B"], "B": ["A"]}]: A → B and B → A. *)
Definition a_b_a : gmap string (list string) := {[ "A" := ["B"]; "B" := ["A"] ]}.

Definition tree_cyclic_extension : HierarchicalCategorization.extend_kwargs :=
  {| HierarchicalCategorization.ext_name := "ext";
     HierarchicalCategorization.categories := {[ "A" := "a"; "B" := "b" ]};
     HierarchicalCategorization.children_arg := Some a_b_a;
     HierarchicalCategorization.ext_title := None;
     HierarchicalCategorization.ext_comment := None;
     HierarchicalCategorization.ext_last_update := None |}.

(** ** Allocation, attributes and delegation *)

(** The operations that are calls of a class. *)
Definition is_constructor (o : op) : bool :=
  match o with
  | Construct _ | ConstructHierarchical _ => true
  | _ => false
  end.

Fixpoint constructions (ops : list op) : nat :=
  match ops with
  | [] => 0
  | o :: ops' => (if is_constructor o then 1 else 0) + constructions ops'
  end.

(** The attributes that the [__init__] of a class assigns. *)
Definition class_attributes (c : class) : gset string :=
  match c with
  | CategorizationClass => Categorization_attributes
  | HierarchicalCategorizationClass => HierarchicalCategorization_attributes
  end.

(** The calls of the module: the client operations, and either [__init__]
    called again on an object, as [Categorization.__init__(obj, ...)] or
    [obj.__init__(...)]. *)
Inductive call :=
| Public (o : op)
| Init (self : loc) (kw : Categorization.init_kwargs)
| HierarchicalInit (self : loc) (kw : HierarchicalCategorization.init_kwargs).

Definition perform_call (c : call) (h : gmap nat object) : gmap nat object :=
  match c with
  | Public o => perform o h
  | Init self kw => (Categorization.__init__ self kw h).2
  | HierarchicalInit self kw => (HierarchicalCategorization.__init__ self kw h).2
  end.

Fixpoint exec_calls (cs : list call) (h : gmap nat object) : gmap nat object :=
  match cs with
  | [] => h
  | c :: cs' => exec_calls cs' (perform_call c h)
  end.

(** The keyword arguments of the call [super().__init__(...)] in
    [HierarchicalCategorization.__init__]. *)
Definition super_kwargs (kw : HierarchicalCategorization.init_kwargs)
    : Categorization.init_kwargs :=
  {| Categorization.name := HierarchicalCategorization.name kw;
     Categorization.references := HierarchicalCategorization.references kw;
     Categorization.title := HierarchicalCategorization.title kw;
     Categorization.comment := HierarchicalCategorization.comment kw;
     Categorization.institution := HierarchicalCategorization.institution kw;
     Categorization.last_update := HierarchicalCategorization.last_update kw;
     Categorization.version :=
       Some (default VNone (HierarchicalCategorization.version kw));
     Categorization.hierarchical := Some (VBool true) |}.

(** [a = Categorization(...); b = HierarchicalCategorization(...)]. *)
Definition construct_both (kw1 : Categorization.init_kwargs)
    (kw2 : HierarchicalCategorization.init_kwargs) : M (loc * loc) :=
  a ← Categorization.construct kw1;
  b ← HierarchicalCategorization.construct kw2;
  mret (a, b).

(** A later set of arguments for [ipcc]. *)
Definition ipcc_revised : Categorization.init_kwargs :=
  {| Categorization.name := VStr "IPCC2006";
     Categorization.references := VStr "IPCC 2006 Guidelines, 2019 Refinement";
     Categorization.title := VStr "IPCC emission categories";
     Categorization.comment := VStr "revised";
     Categorization.institution := VStr "IPCC";
     Categorization.last_update := VDate (Date 2019 5 12);
     Categorization.version := Some (VStr "2019");
     Categorization.hierarchical := None |}.

Definition ipcc_object : object :=
  Object CategorizationClass (Categorization_dict ipcc_kwargs).

(** [tree] after [Categorization.__init__(tree, ...)] with the arguments
    [ipcc_revised], which omit [hierarchical]. *)
Definition tree_reset_heap : gmap nat object :=
  (Categorization.__init__ tree ipcc_revised tree_heap).2.

Definition tree_reset_object : object :=
  Object HierarchicalCategorizationClass
    (Categorization_dict ipcc_revised ∪ HierarchicalCategorization_dict tree_kwargs).

(** On [tree]: the base class's [__init__], a failed [keys()], a second
    instance, then the subclass's [__init__]. *)
Definition reinitialisations : list call :=
  [Init tree ipcc_revised; Public (CallKeys tree);
   Public (Construct ipcc_kwargs); HierarchicalInit tree tree_kwargs].

Definition tree_revised : HierarchicalCategorization.init_kwargs :=
  {| HierarchicalCategorization.name := VStr "TREE";
     HierarchicalCategorization.references := VStr "none";
     HierarchicalCategorization.title := VStr "A tree, revised";
     HierarchicalCategorization.comment := VStr "for illustration";
     HierarchicalCategorization.institution := VStr "nowhere";
     HierarchicalCategorization.last_update := VDate (Date 2021 2 3);
     HierarchicalCategorization.version := Some (VStr "2");
     HierarchicalCategorization.total_sum := Some (VBool true) |}.

(** * Properties *)

(** ** Running the constructors *)

Example construct_ipcc :
  Categorization.construct ipcc_kwargs ∅ = (Ret ipcc, ipcc_heap)
  ∧ ipcc = 0
  ∧ getattr ipcc_heap ipcc "name" = Some (VStr "IPCC2006")
  ∧ getattr ipcc_heap ipcc "version" = Some VNone
  ∧ getattr ipcc_heap ipcc "hierarchical" = Some (VBool false)
  ∧ getattr ipcc_heap ipcc "codes" = None.
Proof. vm_compute. repeat split. Qed.

Example construct_tree :
  HierarchicalCategorization.construct tree_kwargs ∅ = (Ret tree, tree_heap)
  ∧ getattr tree_heap tree "hierarchical" = Some (VBool true)
  ∧ getattr tree_heap tree "total_sum" = Some (VBool false)
  ∧ getattr tree_heap tree "last_update" = Some (VDate (Date 2020 1 1)).
Proof. vm_compute. repeat split. Qed.

(** ** The constructors, step by step *)

Lemma setattr_insert (self : loc) (k : string) (v : value)
    (o : object) (h : gmap nat object) :
  setattr self k v (<[self := o]> h) = (Ret (), <[self := set_dict k v o]> h).
Proof. unfold setattr. by rewrite alter_insert_eq. Qed.

Lemma bind_setattr_insert {B} (self : loc) (k : string) (v : value)
    (o : object) (h : gmap nat object) (m : M B) :
  (setattr self k v ;; m) (<[self := o]> h) = m (<[self := set_dict k v o]> h).
Proof. unfold mbind, M_bind. by rewrite setattr_insert. Qed.

Lemma Categorization_init_insert (self : loc) (kw : Categorization.init_kwargs)
    (c : class) (h : gmap nat object) :
  Categorization.__init__ self kw (<[self := Object c ∅]> h)
  = (Ret (), <[self := Object c (Categorization_dict kw)]> h).
Proof.
  unfold Categorization.__init__.
  rewrite !bind_setattr_insert, setattr_insert. reflexivity.
Qed.

Lemma Categorization_construct_eq (kw : Categorization.init_kwargs)
    (h : gmap nat object) :
  Categorization.construct kw h
  = (Ret (fresh (dom h)),
     <[fresh (dom h) := Object CategorizationClass (Categorization_dict kw)]> h).
Proof.
  unfold Categorization.construct, new_object, mbind, M_bind at 1 2, mret, M_ret.
  by rewrite Categorization_init_insert.
Qed.

Lemma super_insert (cls : class) (self : loc) (o : object) (h : gmap nat object) :
  super cls self (<[self := o]> h)
  = (if issubclass (obj_class o) cls then Ret () else Raise TypeError,
     <[self := o]> h).
Proof. unfold super. rewrite lookup_insert_eq. by destruct (issubclass _ _). Qed.

Lemma HierarchicalCategorization_construct_eq
    (kw : HierarchicalCategorization.init_kwargs) (h : gmap nat object) :
  HierarchicalCategorization.construct kw h
  = (Ret (fresh (dom h)),
     <[fresh (dom h) := Object HierarchicalCategorizationClass
                          (HierarchicalCategorization_dict kw)]> h).
Proof.
  unfold HierarchicalCategorization.construct, new_object,
    HierarchicalCategorization.__init__, mbind, M_bind, mret, M_ret.
  by rewrite super_insert, Categorization_init_insert, setattr_insert.
Qed.

Lemma fresh_loc_unused (h : gmap nat object) : h !! fresh (dom h) = None.
Proof. apply not_elem_of_dom, is_fresh. Qed.

Lemma Categorization_dict_dom (kw : Categorization.init_kwargs) :
  dom (Categorization_dict kw) = Categorization_attributes.
Proof.
  unfold Categorization_dict, Categorization_attributes.
  rewrite !dom_insert_L, dom_empty_L. set_solver.
Qed.

Lemma HierarchicalCategorization_dict_dom
    (kw : HierarchicalCategorization.init_kwargs) :
  dom (HierarchicalCategorization_dict kw) = HierarchicalCategorization_attributes.
Proof.
  unfold HierarchicalCategorization_dict, HierarchicalCategorization_attributes,
    Categorization_attributes.
  rewrite !dom_insert_L, dom_empty_L. set_solver.
Qed.

(** ** The heap under the operations *)

(** A raised exception leaves the heap where it found it. *)
Lemma raise_eq {A} (e : exn) (h : gmap nat object) :
  raise (A := A) e h = (Raise e, h).
Proof. reflexivity. Qed.

(** Only the two constructors change the heap, and they add one object. *)
Lemma perform_heap (o : op) (h : gmap nat object) :
  perform o h = h
  ∨ (∃ kw, perform o h
           = <[fresh (dom h) := Object CategorizationClass (Categorization_dict kw)]> h)
  ∨ (∃ kw, perform o h
           = <[fresh (dom h) := Object HierarchicalCategorizationClass
                                  (HierarchicalCategorization_dict kw)]> h).
Proof.
  destruct o; cbn [perform]; try (left; reflexivity).
  - right; left. exists kw. by rewrite Categorization_construct_eq.
  - right; right. exists kw. by rewrite HierarchicalCategorization_construct_eq.
Qed.

Lemma perform_hierarchical_True (o : op) (h : gmap nat object) :
  hierarchical_True h → hierarchical_True (perform o h).
Proof.
  intros Hinv.
  destruct (perform_heap o h) as [-> | [[kw ->] | [kw ->]]]; [done | |];
    intros l ob Hl Hcls;
    (destruct (decide (l = fresh (dom h))) as [-> | Hne];
      [ rewrite lookup_insert_eq in Hl; injection Hl as <-
      | rewrite lookup_insert_ne in Hl by done; by eapply Hinv ]).
  - discriminate Hcls.
  - reflexivity.
Qed.

Lemma exec_hierarchical_True (ops : list op) (h : gmap nat object) :
  hierarchical_True h → hierarchical_True (exec ops h).
Proof.
  revert h. induction ops as [| o ops IH]; intros h Hinv; simpl; [done |].
  apply IH, perform_hierarchical_True, Hinv.
Qed.

Lemma hierarchical_True_empty : hierarchical_True ∅.
Proof. intros l o Hl. by rewrite lookup_empty in Hl. Qed.

(** ** Construction *)

(** C9.  For every choice of keyword arguments and from every heap, the call
    [Categorization(...)] succeeds: it returns a reference to a new object of
    class [Categorization], leaves every other object alone, and the new
    object holds each argument, unexamined, in the attribute of the same
    name, with [None] for an omitted [version] and [False] for an omitted
    [hierarchical].  These eight attributes are all the object has: the
    constructor takes no codes or meanings, and no attribute stores any. *)
Theorem Categorization_init_stores_arguments
    (kw : Categorization.init_kwargs) (h : gmap nat object) :
  ∃ (self : loc) (o : object),
    Categorization.construct kw h = (Ret self, <[self := o]> h)
    ∧ h !! self = None
    ∧ obj_class o = CategorizationClass
    ∧ obj_dict o !! "name" = Some (Categorization.name kw)
    ∧ obj_dict o !! "references" = Some (Categorization.references kw)
    ∧ obj_dict o !! "title" = Some (Categorization.title kw)
    ∧ obj_dict o !! "comment" = Some (Categorization.comment kw)
    ∧ obj_dict o !! "institution" = Some (Categorization.institution kw)
    ∧ obj_dict o !! "last_update" = Some (Categorization.last_update kw)
    ∧ obj_dict o !! "version" = Some (default VNone (Categorization.version kw))
    ∧ obj_dict o !! "hierarchical"
      = Some (default (VBool false) (Categorization.hierarchical kw))
    ∧ dom (obj_dict o) = Categorization_attributes.
Proof.
  exists (fresh (dom h)), (Object CategorizationClass (Categorization_dict kw)).
  split; [apply Categorization_construct_eq |].
  split; [apply fresh_loc_unused |].
  split; [reflexivity |].
  repeat (split; [reflexivity |]).
  apply Categorization_dict_dom.
Qed.

(** C10.  The call [HierarchicalCategorization(...)], whose parameters
    include no [hierarchical], returns a new object of that class whose
    [hierarchical] is [True] and whose [total_sum] is the argument given,
    [False] when omitted; and after any sequence of constructions and
    operations from the empty heap, every instance of
    [HierarchicalCategorization] has [hierarchical] equal to [True]. *)
Theorem HierarchicalCategorization_hierarchical_is_True
    (kw : HierarchicalCategorization.init_kwargs) (h : gmap nat object)
    (ops : list op) :
  (∃ (self : loc) (o : object),
     HierarchicalCategorization.construct kw h = (Ret self, <[self := o]> h)
     ∧ h !! self = None
     ∧ obj_class o = HierarchicalCategorizationClass
     ∧ obj_dict o !! "hierarchical" = Some (VBool true)
     ∧ obj_dict o !! "total_sum"
       = Some (default (VBool false) (HierarchicalCategorization.total_sum kw))
     ∧ dom (obj_dict o) = HierarchicalCategorization_attributes)
  ∧ hierarchical_True (exec ops ∅).
Proof.
  split.
  - exists (fresh (dom h)),
      (Object HierarchicalCategorizationClass (HierarchicalCategorization_dict kw)).
    split; [apply HierarchicalCategorization_construct_eq |].
    split; [apply fresh_loc_unused |].
    repeat (split; [reflexivity |]).
    apply HierarchicalCategorization_dict_dom.
  - apply exec_hierarchical_True, hierarchical_True_empty.
Qed.

(** The invariant at work: after [tree = HierarchicalCategorization(...)]
    and a failed call of [tree.level("1.A")], the object [tree] is in the
    heap, is a [HierarchicalCategorization], and has [hierarchical] equal to
    [True]. *)
Lemma tree_hierarchical_is_True :
  exec [ConstructHierarchical tree_kwargs;
        CallLevel tree "1.A"] ∅ !! tree
  = Some tree_object
  ∧ obj_class tree_object = HierarchicalCategorizationClass
  ∧ obj_dict tree_object !! "hierarchical" = Some (VBool true).
Proof.
  assert (Hl : exec [ConstructHierarchical tree_kwargs;
                     CallLevel tree "1.A"] ∅ !! tree
               = Some tree_object) by (vm_compute; reflexivity).
  assert (Hc : obj_class tree_object = HierarchicalCategorizationClass)
    by reflexivity.
  split; [exact Hl |]. split; [exact Hc |].
  exact (proj2 (HierarchicalCategorization_hierarchical_is_True tree_kwargs ∅
                  [ConstructHierarchical tree_kwargs;
                   CallLevel tree "1.A"])
           tree tree_object Hl Hc).
Defined.

(** ** The operations *)

(** C8.  From every heap, on every instance and with every argument, each
    data operation of the two classes raises [NotImplementedError] and leaves
    the heap as it was: [__getitem__], [keys], [df], [extend] and [from_csvs]
    of [Categorization]; [from_csvs], [extend], [extend_with_hierarchy],
    [level], [parents], [children] and [hierarchy] of
    [HierarchicalCategorization], and the three operations it inherits.  The
    constructors alone return. *)
Theorem operations_raise_NotImplementedError
    (h : gmap nat object) (self : loc) (code : string) (cls : class)
    (metadata_csv data_csv hierarchy_csv : string)
    (kw : Categorization.extend_kwargs)
    (kwh : HierarchicalCategorization.extend_kwargs)
    (kwr : HierarchicalCategorization.extend_with_hierarchy_kwargs)
    (ikw : Categorization.init_kwargs)
    (ikwh : HierarchicalCategorization.init_kwargs) :
  Categorization.__getitem__ self code h = (Raise NotImplementedError, h)
  ∧ Categorization.keys self h = (Raise NotImplementedError, h)
  ∧ Categorization.df self h = (Raise NotImplementedError, h)
  ∧ Categorization.extend self kw h = (Raise NotImplementedError, h)
  ∧ Categorization.from_csvs cls metadata_csv data_csv h
    = (Raise NotImplementedError, h)
  ∧ HierarchicalCategorization.from_csvs cls metadata_csv data_csv hierarchy_csv h
    = (Raise NotImplementedError, h)
  ∧ HierarchicalCategorization.extend self kwh h = (Raise NotImplementedError, h)
  ∧ HierarchicalCategorization.extend_with_hierarchy self kwr h
    = (Raise NotImplementedError, h)
  ∧ HierarchicalCategorization.level self code h = (Raise NotImplementedError, h)
  ∧ HierarchicalCategorization.parents self code h = (Raise NotImplementedError, h)
  ∧ HierarchicalCategorization.children self code h = (Raise NotImplementedError, h)
  ∧ HierarchicalCategorization.hierarchy self h = (Raise NotImplementedError, h)
  ∧ HierarchicalCategorization.__getitem__ self code h
    = (Raise NotImplementedError, h)
  ∧ HierarchicalCategorization.keys self h = (Raise NotImplementedError, h)
  ∧ HierarchicalCategorization.df self h = (Raise NotImplementedError, h)
  ∧ (∃ l h', Categorization.construct ikw h = (Ret l, h'))
  ∧ (∃ l h', HierarchicalCategorization.construct ikwh h = (Ret l, h')).
Proof.
  repeat (split; [apply raise_eq |]).
  split; eexists _, _.
  - apply Categorization_construct_eq.
  - apply HierarchicalCategorization_construct_eq.
Qed.

(** ** Extension and the base *)

(** C7.  A call of any of the three extension methods on a base, from any
    heap and with any arguments, leaves the base as it was: the object is
    unchanged, [keys()] and a lookup of any code on the base answer after the
    call what they answered before it, and a call that fails leaves the whole
    heap unchanged, so that no object built on the way remains. *)
Theorem extension_leaves_base_unchanged
    (h : gmap nat object) (base : loc)
    (kw : Categorization.extend_kwargs)
    (kwh : HierarchicalCategorization.extend_kwargs)
    (kwr : HierarchicalCategorization.extend_with_hierarchy_kwargs) :
  leaves_base_unchanged (Categorization.extend base kw) h base
  ∧ leaves_base_unchanged (HierarchicalCategorization.extend base kwh) h base
  ∧ leaves_base_unchanged
      (HierarchicalCategorization.extend_with_hierarchy base kwr) h base.
Proof.
  unfold leaves_base_unchanged.
  rewrite (raise_eq (A := loc) NotImplementedError h
           : Categorization.extend base kw h = _).
  rewrite (raise_eq (A := loc) NotImplementedError h
           : HierarchicalCategorization.extend base kwh h = _).
  rewrite (raise_eq (A := loc) NotImplementedError h
           : HierarchicalCategorization.extend_with_hierarchy base kwr h = _).
  repeat split.
Qed.

(** ** Codes and lookups *)

(** C1, on the code.  After [ipcc = Categorization(...)], the lookup
    [ipcc["1.A"]] raises [NotImplementedError] and leaves the heap as it
    was: it gives no meaning and does not fail with [CodeNotFound]; and
    [ipcc.keys()], which is to enumerate the codes, raises alike. *)
Theorem getitem_raises_on_ipcc :
  Categorization.construct ipcc_kwargs ∅ = (Ret ipcc, ipcc_heap)
  ∧ Categorization.__getitem__ ipcc "1.A" ipcc_heap
    = (Raise NotImplementedError, ipcc_heap)
  ∧ Categorization.keys ipcc ipcc_heap = (Raise NotImplementedError, ipcc_heap).
Proof.
  split; [vm_compute; reflexivity |].
  split; apply raise_eq.
Qed.

(** ** [Categorization.extend] *)


(** No extension call fails with [DuplicateCode], whatever the keys of
    [categories]. *)
Lemma extension_never_DuplicateCode
    (h : gmap nat object) (self : loc)
    (kw : Categorization.extend_kwargs)
    (kwh : HierarchicalCategorization.extend_kwargs)
    (kwr : HierarchicalCategorization.extend_with_hierarchy_kwargs) :
  (Categorization.extend self kw h).1 ≠ Raise DuplicateCode
  ∧ (HierarchicalCategorization.extend self kwh h).1 ≠ Raise DuplicateCode
  ∧ (HierarchicalCategorization.extend_with_hierarchy self kwr h).1
    ≠ Raise DuplicateCode.
Proof. repeat split; discriminate. Qed.

(** ** Hierarchies *)




Lemma a_b_a_edges : edge a_b_a "A" "B" ∧ edge a_b_a "B" "A".
Proof.
  split; eexists; (split; [vm_compute; reflexivity |]);
    by apply list_elem_of_singleton.
Qed.


(** C5, on the code.  After [tree = HierarchicalCategorization(...)], the
    call [tree.extend(name="ext", categories={"A": ..., "B": ...},
    children={"A": ["B"], "B": ["A"]})], whose edges make a cycle in every
    graph that holds them, raises [NotImplementedError], not
    [CyclicHierarchy], and leaves the heap as it was. *)
Theorem extend_raises_on_cyclic_children :
  HierarchicalCategorization.construct tree_kwargs ∅ = (Ret tree, tree_heap)
  ∧ HierarchicalCategorization.children_arg tree_cyclic_extension = Some a_b_a
  ∧ (∀ R : relation string, (∀ p c, edge a_b_a p c → R p c) → has_cycle R)
  ∧ HierarchicalCategorization.extend tree tree_cyclic_extension tree_heap
    = (Raise NotImplementedError, tree_heap).
Proof.
  split; [vm_compute; reflexivity |].
  split; [reflexivity |]. split; [| apply raise_eq].
  intros R HR. destruct a_b_a_edges as [Hab Hba].
  exists "A". eapply tc_l; [apply HR, Hab |]. apply tc_once, HR, Hba.
Qed.

(** C6, on the code.  After [tree = HierarchicalCategorization(...)], the
    call [tree.level("X")] raises [NotImplementedError] and leaves the heap
    as it was: it returns no integer and does not fail with
    [CodeNotFound]. *)
Theorem level_raises_on_tree :
  HierarchicalCategorization.construct tree_kwargs ∅ = (Ret tree, tree_heap)
  ∧ HierarchicalCategorization.level tree "X" tree_heap
    = (Raise NotImplementedError, tree_heap).
Proof. split; [vm_compute; reflexivity | apply raise_eq]. Qed.

(** * Further properties of the constructors and of sequences of operations *)

(** ** [__init__] on an object that already has attributes *)

Lemma set_dict_union (k : string) (v : value) (c : class)
    (d d' : gmap string value) :
  set_dict k v (Object c (d ∪ d')) = Object c (<[k := v]> d ∪ d').
Proof. unfold set_dict; simpl. by rewrite insert_union_l. Qed.

Lemma Categorization_init_live (self : loc) (kw : Categorization.init_kwargs)
    (c : class) (d : gmap string value) (h : gmap nat object) :
  Categorization.__init__ self kw (<[self := Object c d]> h)
  = (Ret (), <[self := Object c (Categorization_dict kw ∪ d)]> h).
Proof.
  rewrite <- (left_id_L ∅ (∪) d) at 1.
  unfold Categorization.__init__, Categorization_dict.
  rewrite !bind_setattr_insert, setattr_insert, !set_dict_union. reflexivity.
Qed.

Lemma HierarchicalCategorization_init_live (self : loc)
    (kw : HierarchicalCategorization.init_kwargs)
    (d : gmap string value) (h : gmap nat object) :
  HierarchicalCategorization.__init__ self kw
    (<[self := Object HierarchicalCategorizationClass d]> h)
  = (Ret (), <[self := Object HierarchicalCategorizationClass
                         (HierarchicalCategorization_dict kw ∪ d)]> h).
Proof.
  unfold HierarchicalCategorization.__init__, mbind, M_bind.
  rewrite super_insert, Categorization_init_live, setattr_insert, set_dict_union.
  reflexivity.
Qed.

Lemma HierarchicalCategorization_init_flat (self : loc)
    (kw : HierarchicalCategorization.init_kwargs)
    (d : gmap string value) (h : gmap nat object) :
  HierarchicalCategorization.__init__ self kw
    (<[self := Object CategorizationClass d]> h)
  = (Raise TypeError, <[self := Object CategorizationClass d]> h).
Proof.
  unfold HierarchicalCategorization.__init__, mbind, M_bind.
  by rewrite super_insert.
Qed.

(** Two dictionaries with the same keys hide the same part of a third. *)
Lemma union_same_dom (d1 d2 d : gmap string value) :
  dom d1 = dom d2 → d2 ∪ (d1 ∪ d) = d2 ∪ d.
Proof.
  intros Hdom. apply map_eq; intros k. rewrite !lookup_union.
  destruct (d2 !! k) as [v |] eqn:Hk; [by destruct (d1 !! k), (d !! k) |].
  apply not_elem_of_dom in Hk. rewrite <- Hdom in Hk.
  apply not_elem_of_dom in Hk. by rewrite Hk, !(left_id_L None _).
Qed.

(** [Categorization.__init__] on any live object, whatever it held before:
    the call returns, the object keeps its class, its eight attributes now
    hold the arguments, every other attribute it had is kept (the union
    takes the new dictionary first), and no other object changes. *)
Theorem Categorization_init_overwrites
    (self : loc) (o : object) (kw : Categorization.init_kwargs)
    (h : gmap nat object) :
  h !! self = Some o →
  Categorization.__init__ self kw h
  = (Ret (), <[self := Object (obj_class o)
                         (Categorization_dict kw ∪ obj_dict o)]> h).
Proof.
  intros Hself. rewrite <- (insert_id h self o) at 1 by done.
  destruct o as [c d]. apply Categorization_init_live.
Qed.

Lemma Categorization_init_overwrites_tree :
  tree_heap !! tree = Some tree_object
  ∧ Categorization.__init__ tree ipcc_revised tree_heap
    = (Ret (), <[tree := Object (obj_class tree_object)
                           (Categorization_dict ipcc_revised
                            ∪ obj_dict tree_object)]> tree_heap).
Proof.
  assert (Hl : tree_heap !! tree = Some tree_object) by (vm_compute; reflexivity).
  split; [exact Hl |].
  exact (Categorization_init_overwrites tree tree_object ipcc_revised tree_heap Hl).
Defined.

(** [HierarchicalCategorization.__init__] on a live object.  On an instance
    of [HierarchicalCategorization], whatever it held before: [hierarchical]
    becomes [True], [total_sum] and the other seven attributes hold the
    arguments, every further attribute is kept, and no other object changes.
    On a plain [Categorization] the call raises [TypeError] at [super(...)]
    and assigns nothing. *)
Theorem HierarchicalCategorization_init_overwrites
    (self : loc) (o : object) (kw : HierarchicalCategorization.init_kwargs)
    (h : gmap nat object) :
  h !! self = Some o →
  HierarchicalCategorization.__init__ self kw h
  = match obj_class o with
    | HierarchicalCategorizationClass =>
        (Ret (), <[self := Object HierarchicalCategorizationClass
                              (HierarchicalCategorization_dict kw ∪ obj_dict o)]> h)
    | CategorizationClass => (Raise TypeError, h)
    end
  ∧ (HierarchicalCategorization_dict kw ∪ obj_dict o) !! "hierarchical"
    = Some (VBool true).
Proof.
  intros Hself. split; [| by apply lookup_union_Some_l].
  destruct o as [[] d]; simpl.
  - rewrite <- (insert_id h self _ Hself).
    apply HierarchicalCategorization_init_flat.
  - rewrite <- (insert_id h self _ Hself) at 1.
    apply HierarchicalCategorization_init_live.
Qed.

(** At [tree] after [Categorization.__init__(tree, ..., hierarchical
    omitted)], which left [hierarchical] at [False]: the subclass's
    [__init__] puts [True] back. *)
Lemma HierarchicalCategorization_init_overwrites_tree :
  tree_reset_heap !! tree = Some tree_reset_object
  ∧ HierarchicalCategorization.__init__ tree tree_revised tree_reset_heap
    = match obj_class tree_reset_object with
      | HierarchicalCategorizationClass =>
          (Ret (), <[tree := Object HierarchicalCategorizationClass
                                (HierarchicalCategorization_dict tree_revised
                                 ∪ obj_dict tree_reset_object)]> tree_reset_heap)
      | CategorizationClass => (Raise TypeError, tree_reset_heap)
      end
  ∧ (HierarchicalCategorization_dict tree_revised ∪ obj_dict tree_reset_object)
      !! "hierarchical" = Some (VBool true).
Proof.
  assert (Hl : tree_reset_heap !! tree = Some tree_reset_object)
    by (vm_compute; reflexivity).
  split; [exact Hl |].
  exact (HierarchicalCategorization_init_overwrites
           tree tree_reset_object tree_revised tree_reset_heap Hl).
Defined.

(** Initialising a live object twice is initialising it with the second
    arguments: nothing of the first call survives. *)
Theorem Categorization_init_twice
    (self : loc) (o : object) (kw1 kw2 : Categorization.init_kwargs)
    (h : gmap nat object) :
  h !! self = Some o →
  (Categorization.__init__ self kw1 ;; Categorization.__init__ self kw2) h
  = Categorization.__init__ self kw2 h.
Proof.
  intros Hself. rewrite <- (insert_id h self o) by done.
  destruct o as [c d]. unfold mbind, M_bind at 1.
  rewrite !Categorization_init_live, union_same_dom; [done |].
  by rewrite !Categorization_dict_dom.
Qed.

Lemma Categorization_init_twice_ipcc :
  ipcc_heap !! ipcc = Some ipcc_object
  ∧ (Categorization.__init__ ipcc ipcc_kwargs ;;
     Categorization.__init__ ipcc ipcc_revised) ipcc_heap
    = Categorization.__init__ ipcc ipcc_revised ipcc_heap.
Proof.
  assert (Hl : ipcc_heap !! ipcc = Some ipcc_object) by (vm_compute; reflexivity).
  split; [exact Hl |].
  exact (Categorization_init_twice ipcc ipcc_object ipcc_kwargs ipcc_revised
           ipcc_heap Hl).
Defined.

(** ** The two constructors together *)

(** [HierarchicalCategorization(...)] builds what
    [Categorization(..., hierarchical=True)] builds from the same arguments,
    at the same reference, with the class of the subclass and one more
    attribute, [total_sum]. *)
Theorem HierarchicalCategorization_construct_delegates
    (kw : HierarchicalCategorization.init_kwargs) (h : gmap nat object) :
  ∃ (self : loc) (d : gmap string value),
    Categorization.construct (super_kwargs kw) h
    = (Ret self, <[self := Object CategorizationClass d]> h)
    ∧ HierarchicalCategorization.construct kw h
      = (Ret self,
         <[self := Object HierarchicalCategorizationClass
                     (<["total_sum" :=
                          default (VBool false)
                            (HierarchicalCategorization.total_sum kw)]> d)]> h)
    ∧ d !! "hierarchical" = Some (VBool true)
    ∧ d !! "total_sum" = None.
Proof.
  exists (fresh (dom h)), (Categorization_dict (super_kwargs kw)).
  split; [apply Categorization_construct_eq |].
  split; [apply HierarchicalCategorization_construct_eq |].
  split; reflexivity.
Qed.

(** Two constructions in a row give two different references, both new;
    each object holds its own arguments afterwards, and every object that
    was in the heap is still there, unchanged. *)
Theorem constructions_are_independent
    (kw1 : Categorization.init_kwargs)
    (kw2 : HierarchicalCategorization.init_kwargs) (h : gmap nat object) :
  ∃ (a b : loc) (h' : gmap nat object),
    construct_both kw1 kw2 h = (Ret (a, b), h')
    ∧ a ≠ b
    ∧ h !! a = None
    ∧ h !! b = None
    ∧ h' !! a = Some (Object CategorizationClass (Categorization_dict kw1))
    ∧ h' !! b = Some (Object HierarchicalCategorizationClass
                        (HierarchicalCategorization_dict kw2))
    ∧ h ⊆ h'.
Proof.
  set (a := fresh (dom h)).
  set (h1 := <[a := Object CategorizationClass (Categorization_dict kw1)]> h).
  set (b := fresh (dom h1)).
  assert (Ha : h !! a = None) by apply fresh_loc_unused.
  assert (Hb : h1 !! b = None) by apply fresh_loc_unused.
  assert (Hab : a ≠ b).
  { intros Heq. rewrite <- Heq in Hb. unfold h1 in Hb.
    by rewrite lookup_insert_eq in Hb. }
  exists a, b, (<[b := Object HierarchicalCategorizationClass
                        (HierarchicalCategorization_dict kw2)]> h1).
  split.
  { unfold construct_both, mbind, M_bind.
    rewrite Categorization_construct_eq. fold a h1.
    by rewrite HierarchicalCategorization_construct_eq. }
  split; [exact Hab |]. split; [exact Ha |].
  split; [unfold h1 in Hb; by rewrite lookup_insert_ne in Hb |].
  split; [unfold h1; by rewrite lookup_insert_ne, lookup_insert_eq |].
  split; [apply lookup_insert_eq |].
  transitivity h1; by apply insert_subseteq.
Qed.

(** ** Sequences of operations *)

Lemma perform_size (o : op) (h : gmap nat object) :
  size (perform o h) = size h + (if is_constructor o then 1 else 0).
Proof.
  destruct o; cbn [perform is_constructor];
    rewrite ?Categorization_construct_eq,
            ?HierarchicalCategorization_construct_eq;
    cbn [snd]; rewrite ?map_size_insert_None by apply fresh_loc_unused;
    try lia; unfold raise; simpl; lia.
Qed.

(** Only the constructors create instances: after a sequence of operations
    the heap has as many objects more as the sequence has constructor calls;
    [from_csvs], [extend] and [extend_with_hierarchy], which are to return
    new instances, add none. *)
Theorem only_constructors_allocate (ops : list op) (h : gmap nat object) :
  size (exec ops h) = size h + constructions ops.
Proof.
  revert h. induction ops as [| o ops IH]; intros h; simpl; [lia |].
  rewrite IH, perform_size. lia.
Qed.

(** ** Sequences of calls, re-initialisation included *)

Lemma Categorization_init_absent (self : loc) (kw : Categorization.init_kwargs)
    (h : gmap nat object) :
  h !! self = None → Categorization.__init__ self kw h = (Ret (), h).
Proof.
  intros Hself. unfold Categorization.__init__, mbind, M_bind, setattr.
  by rewrite !(alter_id' _ _ _ Hself).
Qed.

Lemma Categorization_attributes_of_class (c : class) :
  Categorization_attributes ⊆ class_attributes c.
Proof.
  destruct c; simpl; [done |].
  unfold HierarchicalCategorization_attributes. apply union_subseteq_l.
Qed.

(** What one call does to the heap: nothing, or one new object with the
    attributes of its class, or new values for attributes of the class of a
    live object. *)
Lemma perform_call_cases (c : call) (h : gmap nat object) :
  perform_call c h = h
  ∨ (∃ o, perform_call c h = <[fresh (dom h) := o]> h
          ∧ dom (obj_dict o) = class_attributes (obj_class o))
  ∨ (∃ self o d, h !! self = Some o
                 ∧ perform_call c h
                   = <[self := Object (obj_class o) (d ∪ obj_dict o)]> h
                 ∧ dom d ⊆ class_attributes (obj_class o)).
Proof.
  destruct c as [o | self kw | self kw]; cbn [perform_call].
  - destruct (perform_heap o h) as [-> | [[kw ->] | [kw ->]]]; [by left | |];
      right; left; eexists; (split; [reflexivity |]); simpl.
    + apply Categorization_dict_dom.
    + apply HierarchicalCategorization_dict_dom.
  - destruct (h !! self) as [[cl d] |] eqn:Hself.
    + right; right. exists self, (Object cl d), (Categorization_dict kw).
      split; [done |]. split.
      * rewrite <- (insert_id h self _ Hself) at 1.
        by rewrite Categorization_init_live.
      * rewrite Categorization_dict_dom. apply Categorization_attributes_of_class.
    + left. by rewrite Categorization_init_absent.
  - destruct (h !! self) as [[[] d] |] eqn:Hself.
    + left. rewrite <- (insert_id h self _ Hself) at 1.
      rewrite HierarchicalCategorization_init_flat. simpl.
      by apply insert_id.
    + right; right.
      exists self, (Object HierarchicalCategorizationClass d),
        (HierarchicalCategorization_dict kw).
      split; [done |]. split.
      * rewrite <- (insert_id h self _ Hself) at 1.
        by rewrite HierarchicalCategorization_init_live.
      * by rewrite HierarchicalCategorization_dict_dom.
    + left. unfold HierarchicalCategorization.__init__, mbind, M_bind, super.
      by rewrite Hself.
Qed.

Lemma perform_call_keeps (c : call) (h : gmap nat object) (l : loc) (o : object) :
  h !! l = Some o →
  ∃ o', perform_call c h !! l = Some o'
        ∧ obj_class o' = obj_class o
        ∧ dom (obj_dict o) ⊆ dom (obj_dict o').
Proof.
  intros Hl.
  destruct (perform_call_cases c h)
    as [-> | [(o1 & -> & _) | (self & o1 & d & Hself & -> & _)]].
  - by exists o.
  - exists o. rewrite lookup_insert_ne; [done |].
    intros <-. by rewrite fresh_loc_unused in Hl.
  - destruct (decide (self = l)) as [-> | Hne].
    + rewrite Hl in Hself. injection Hself as <-.
      eexists. rewrite lookup_insert_eq. split; [reflexivity |].
      split; [reflexivity |]. simpl. rewrite dom_union_L.
      apply union_subseteq_r.
    + exists o. by rewrite lookup_insert_ne.
Qed.

Lemma perform_call_attributes (c : call) (h : gmap nat object) :
  map_Forall (λ _ o, dom (obj_dict o) = class_attributes (obj_class o)) h →
  map_Forall (λ _ o, dom (obj_dict o) = class_attributes (obj_class o))
    (perform_call c h).
Proof.
  intros Hall.
  destruct (perform_call_cases c h)
    as [-> | [(o1 & -> & Ho1) | (self & o1 & d & Hself & -> & Hd)]];
    [done | by apply map_Forall_insert_2 |].
  apply map_Forall_insert_2; [| done]. simpl.
  rewrite dom_union_L, (Hall self o1 Hself).
  by apply subseteq_union_1_L.
Qed.

(** No call of the module removes an object, changes its class or takes an
    attribute from it: through any sequence of constructions, of calls of
    either [__init__] on live objects and of the data operations, an object
    in the heap stays at its reference, with its class and at least the
    attributes it had. *)
Theorem objects_keep_class_and_attributes
    (cs : list call) (h : gmap nat object) (l : loc) (o : object) :
  h !! l = Some o →
  ∃ o', exec_calls cs h !! l = Some o'
        ∧ obj_class o' = obj_class o
        ∧ dom (obj_dict o) ⊆ dom (obj_dict o').
Proof.
  revert h o. induction cs as [| c cs IH]; intros h o Hl; simpl.
  - by exists o.
  - destruct (perform_call_keeps c h l o Hl) as (o1 & Hl1 & Hc1 & Hd1).
    destruct (IH _ _ Hl1) as (o' & Hl' & Hc' & Hd').
    exists o'. split; [done |].
    split; [congruence | by transitivity (dom (obj_dict o1))].
Qed.

Lemma tree_keeps_class_and_attributes :
  tree_heap !! tree = Some tree_object
  ∧ ∃ o', exec_calls reinitialisations tree_heap !! tree = Some o'
          ∧ obj_class o' = obj_class tree_object
          ∧ dom (obj_dict tree_object) ⊆ dom (obj_dict o').
Proof.
  assert (Hl : tree_heap !! tree = Some tree_object) by (vm_compute; reflexivity).
  split; [exact Hl |].
  exact (objects_keep_class_and_attributes
           reinitialisations tree_heap tree tree_object Hl).
Defined.

(** After any sequence of calls from the empty heap (constructions, calls
    of either [__init__] on live objects, data operations), every object has
    exactly the attributes of its class: the eight of [Categorization], and
    [total_sum] besides for a [HierarchicalCategorization].  Their values
    may have been rewritten by an [__init__]; their names have not. *)
Theorem instances_have_their_class_attributes
    (cs : list call) (l : loc) (o : object) :
  exec_calls cs ∅ !! l = Some o →
  dom (obj_dict o) = class_attributes (obj_class o).
Proof.
  assert (Hall : ∀ h,
    map_Forall (λ _ o, dom (obj_dict o) = class_attributes (obj_class o)) h →
    map_Forall (λ _ o, dom (obj_dict o) = class_attributes (obj_class o))
      (exec_calls cs h)).
  { induction cs as [| c cs IH]; intros h Hh; simpl; [done |].
    by apply IH, perform_call_attributes. }
  intros Hl. exact (Hall ∅ (map_Forall_empty _) l o Hl).
Qed.

Lemma tree_reset_has_its_class_attributes :
  exec_calls [Public (ConstructHierarchical tree_kwargs);
              Init tree ipcc_revised] ∅ !! tree = Some tree_reset_object
  ∧ dom (obj_dict tree_reset_object)
    = class_attributes (obj_class tree_reset_object).
Proof.
  assert (Hl : exec_calls [Public (ConstructHierarchical tree_kwargs);
                           Init tree ipcc_revised] ∅ !! tree
               = Some tree_reset_object) by (vm_compute; reflexivity).
  split; [exact Hl |].
  exact (instances_have_their_class_attributes
           [Public (ConstructHierarchical tree_kwargs); Init tree ipcc_revised]
           tree tree_reset_object Hl).
Defined.
